(** * Category management API: the mock handlers of [fastapi_docs.py]

    The module declares the request and response schemas of a category
    management HTTP API and one mock handler per route.  Each handler is
    an [async def] whose body is a single [return] of a dict literal; the
    only things a body reads are its own parameters and, for three of
    them, the wall clock.  The one dependency, [get_current_user], raises
    an [HTTPException] when the [Authorization] header is absent or
    empty.

    Modelling choices.
    - A request has two forms.  On the wire ([WireRequest]) the body is
      bytes that may fail to decode and the query parameter is a string;
      the framework reads the body first, resolves the dependency next
      and binds the parameters to the schema types last ([app]).  A
      decoded request ([Request]) is what the handlers are called with:
      the header is an [option string], the path and query parameters
      and the JSON body are values of the schema types ([endpoint]).
    - A Python [str] is the Rocq string of its UTF-8 encoding; its
      length is the number of its code points.
    - A handler returns a dict whose keys are those of its
      [response_model]; it is modelled as a value of that record.
    - A raised exception is the left summand of [Exception + A]; the
      dependency and the handler are sequenced with the bind of that
      monad, so a handler body runs only when the dependency returned.
    - [datetime.now().isoformat()] is a parameter [now] of the handlers
      that read the clock.
    - Python [int] is [Z]; [Optional[T]] is [option T]. *)

From Stdlib Require Import String List Bool ZArith Lia.
From ExtLib Require Import Structures.Monad Data.Monads.EitherMonad.
Import ListNotations.
Import MonadNotation.
Local Open Scope string_scope.
Local Open Scope monad_scope.
#[local] Set Warnings "-register-all".
#[local] Set Warnings "-automation".


(** ** Python truthiness

    [not x] and [x or d] on the [Optional] values the handlers use:
    [None], the empty string and the integer zero are falsy. *)
Module Py.

Definition truthy_str (o : option string) : bool :=
  match o with
  | None => false
  | Some s => negb (s =? "")
  end.

Definition truthy_int (o : option Z) : bool :=
  match o with
  | None => false
  | Some n => negb (n =? 0)%Z
  end.

(** [o or d] where [o : Optional[str]] and [d : str]. *)
Definition or_str (o : option string) (d : string) : string :=
  match o with
  | Some s => if truthy_str o then s else d
  | None => d
  end.

(** [o or d] where [o : Optional[int]] and [d : int]. *)
Definition or_int (o : option Z) (d : Z) : Z :=
  match o with
  | Some n => if truthy_int o then n else d
  | None => d
  end.

End Py.

(** ** Schemas *)

(** A byte [10xxxxxx] continues a character of the UTF-8 encoding; any
    other byte starts one. *)
Definition continuation (a : Ascii.ascii) : bool :=
  match a with
  | Ascii.Ascii _ _ _ _ _ _ b6 b7 => b7 && negb b6
  end.

(** Python's [len] of a [str]: the number of its code points. *)
Fixpoint code_points (s : string) : nat :=
  match s with
  | EmptyString => 0
  | String a s => if continuation a then code_points s else S (code_points s)
  end.

(** [Field(min_length=1, max_length=100)] on every [name]; both bounds
    count code points. *)
Definition name_ok (s : string) : bool :=
  (1 <=? code_points s)%nat && (code_points s <=? 100)%nat.

(** [Field(ge=0)] on an optional [order]. *)
Definition order_ok (o : option Z) : bool :=
  match o with
  | None => true
  | Some n => (0 <=? n)%Z
  end.

Definition opt_name_ok (o : option string) : bool :=
  match o with
  | None => true
  | Some s => name_ok s
  end.

Module CategoryCreate.
Record t := mk { name : string; parentId : option string; order : option Z }.
Definition valid (c : t) : bool := name_ok (name c) && order_ok (order c).
End CategoryCreate.

Module CategoryResponse.
Record t := mk {
  id : string;
  name : string;
  parentId : option string;
  order : Z;
  createdAt : string;
  updatedAt : string
}.
End CategoryResponse.

Module CategoryTreeNode.

Inductive t := mk { id : string; name : string; children : list t }.

Fixpoint valid (n : t) : bool :=
  match n with
  | mk _ nm ch => name_ok nm && forallb valid ch
  end.

(** The ids of a node and of all the nodes below it, parents first. *)
Fixpoint ids (n : t) : list string :=
  match n with
  | mk i _ ch => i :: flat_map ids ch
  end.

(** [under anc n]: some node of the subtree [n] carries an id that
    already occurs on its own ancestor chain, [anc] being the ids
    above [n]. *)
Fixpoint under (anc : list string) (n : t) : bool :=
  match n with
  | mk i _ ch => existsb (String.eqb i) anc || existsb (under (i :: anc)) ch
  end.

End CategoryTreeNode.

(** A submitted forest, the body of the batch save. *)
Definition forest := list CategoryTreeNode.t.

Definition forest_valid (f : forest) : bool := forallb CategoryTreeNode.valid f.
Definition forest_ids (f : forest) : list string := flat_map CategoryTreeNode.ids f.
Definition forest_cyclic (f : forest) : bool := existsb (CategoryTreeNode.under []) f.

Module CategoryUpdate.
Record t := mk { name : option string; parentId : option string; order : option Z }.
Definition valid (c : t) : bool := opt_name_ok (name c) && order_ok (order c).
End CategoryUpdate.

Module CategoryPatch.
Record t := mk { name : option string; parentId : option string; order : option Z }.
Definition valid (c : t) : bool := opt_name_ok (name c) && order_ok (order c).
End CategoryPatch.

Module TreeSaveResponse.
Record t := mk { created : list string; updated : list string; deleted : list string }.
End TreeSaveResponse.

Module DeleteResponse.
Record t := mk { success : bool; deleted : string; hasChildren : bool; childCount : Z }.
End DeleteResponse.

Inductive FormatEnum := TREE | FLAT.

(** ** Exceptions and status codes *)

Definition HTTP_200_OK : Z := 200.
Definition HTTP_201_CREATED : Z := 201.
Definition HTTP_401_UNAUTHORIZED : Z := 401.
Definition HTTP_404_NOT_FOUND : Z := 404.
Definition HTTP_422_UNPROCESSABLE_ENTITY : Z := 422.
Definition HTTP_500_INTERNAL_SERVER_ERROR : Z := 500.

Inductive Exception :=
| HTTPException (status_code : Z) (detail : string) (headers : list (string * string))
  (** raised by the framework when a parameter violates its [Field] *)
| RequestValidationError
  (** attribute access on [None] *)
| AttributeError.

Definition raise {A} (e : Exception) : Exception + A := inl e.

(** ** Authentication dependency *)

Definition API_KEY : string := "test_key".

Record CurrentUser := { userId : string }.

Definition get_current_user (api_key : option string) : Exception + CurrentUser :=
  if negb (Py.truthy_str api_key) then
    raise (HTTPException HTTP_401_UNAUTHORIZED "Missing API Key"
             [("WWW-Authenticate", "Bearer")])
  else
    ret {| userId := "user_2wUsqGRXsrr3oD5dsS8zJtGNXN4" |}.

(** ** Handlers

    The example identifiers and timestamp that the dict literals repeat. *)
Definition uuid_0000 : string := "550e8400-e29b-41d4-a716-446655440000".
Definition uuid_0001 : string := "550e8400-e29b-41d4-a716-446655440001".
Definition uuid_0002 : string := "550e8400-e29b-41d4-a716-446655440002".
Definition uuid_0003 : string := "550e8400-e29b-41d4-a716-446655440003".
Definition example_time : string := "2023-07-15T12:00:00Z".

(** What [get_categories] returns: a list of tree dicts or a list of
    flat dicts. *)
Inductive Categories :=
| AsTree (l : list CategoryTreeNode.t)
| AsFlat (l : list CategoryResponse.t).

Definition get_categories (format : option FormatEnum) (current_user : CurrentUser)
  : Exception + Categories :=
  match format with
  | Some FLAT =>
      ret (AsFlat
        [ CategoryResponse.mk uuid_0000 "Electronics" None 0 example_time example_time;
          CategoryResponse.mk uuid_0001 "Phones" (Some uuid_0000) 0 example_time example_time ])
  | _ =>
      ret (AsTree
        [ CategoryTreeNode.mk uuid_0000 "Electronics"
            [ CategoryTreeNode.mk uuid_0001 "Phones" [];
              CategoryTreeNode.mk uuid_0002 "Laptops" [] ];
          CategoryTreeNode.mk uuid_0003 "Clothing" [] ])
  end.

Definition get_category_tree (current_user : CurrentUser)
  : Exception + list CategoryTreeNode.t :=
  ret [ CategoryTreeNode.mk uuid_0000 "Electronics"
          [ CategoryTreeNode.mk uuid_0001 "Phones" [] ];
        CategoryTreeNode.mk uuid_0003 "Clothing" [] ].

Definition get_category (category_id : string) (current_user : CurrentUser)
  : Exception + CategoryResponse.t :=
  ret (CategoryResponse.mk category_id "Sample Category" None 0 example_time example_time).

Definition create_category (now : string) (category : CategoryCreate.t)
  (current_user : CurrentUser) : Exception + CategoryResponse.t :=
  let now := now ++ "Z" in
  ret (CategoryResponse.mk uuid_0000
         (CategoryCreate.name category)
         (CategoryCreate.parentId category)
         (Py.or_int (CategoryCreate.order category) 0)
         now now).

Definition save_category_tree (categories : forest) (current_user : CurrentUser)
  : Exception + TreeSaveResponse.t :=
  ret (TreeSaveResponse.mk [uuid_0001; uuid_0002] [uuid_0000] [uuid_0003]).

(** [category] defaults to [None]; reading [category.name] then raises. *)
Definition update_category (now : string) (category_id : string)
  (category : option CategoryUpdate.t) (current_user : CurrentUser)
  : Exception + CategoryResponse.t :=
  match category with
  | None => raise AttributeError
  | Some category =>
      ret (CategoryResponse.mk category_id
             (Py.or_str (CategoryUpdate.name category) "Updated Category")
             (CategoryUpdate.parentId category)
             (Py.or_int (CategoryUpdate.order category) 0)
             example_time
             (now ++ "Z"))
  end.

Definition patch_category (now : string) (category_id : string)
  (patch : option CategoryPatch.t) (current_user : CurrentUser)
  : Exception + CategoryResponse.t :=
  match patch with
  | None => raise AttributeError
  | Some patch =>
      ret (CategoryResponse.mk category_id
             (Py.or_str (CategoryPatch.name patch) "Patched Category")
             (match CategoryPatch.parentId patch with
              | Some p => Some p
              | None => None
              end)
             (Py.or_int (CategoryPatch.order patch) 1)
             example_time
             (now ++ "Z"))
  end.

Definition delete_category (category_id : string) (current_user : CurrentUser)
  : Exception + DeleteResponse.t :=
  ret (DeleteResponse.mk true category_id false 0).

(** ** Routes

    A decoded request, per route, and the content of a response. *)
Inductive Request :=
| GET_categories (format : option FormatEnum)
| GET_categories_tree
| GET_category (category_id : string)
| POST_categories (category : CategoryCreate.t)
| PUT_categories_tree (categories : forest)
| PUT_category (category_id : string) (category : option CategoryUpdate.t)
| PATCH_category (category_id : string) (patch : option CategoryPatch.t)
| DELETE_category (category_id : string).

Inductive Content :=
| CategoriesContent (c : Categories)
| TreeContent (l : list CategoryTreeNode.t)
| CategoryContent (c : CategoryResponse.t)
| TreeSaveContent (r : TreeSaveResponse.t)
| DeleteContent (r : DeleteResponse.t).

(** The framework checks a body against its schema once the route's
    dependencies have returned, and before it calls the handler. *)
Definition check (ok : bool) : Exception + unit :=
  if ok then ret tt else raise RequestValidationError.

Definition opt_valid {A} (valid : A -> bool) (o : option A) : bool :=
  match o with
  | None => true
  | Some a => valid a
  end.

(** The handler that the decorator binds to each route, behind the
    check of its body. *)
Definition handle (now : string) (req : Request) (current_user : CurrentUser)
  : Exception + Content :=
  match req with
  | GET_categories format =>
      r <- get_categories format current_user ;; ret (CategoriesContent r)
  | GET_categories_tree =>
      r <- get_category_tree current_user ;; ret (TreeContent r)
  | GET_category category_id =>
      r <- get_category category_id current_user ;; ret (CategoryContent r)
  | POST_categories category =>
      check (CategoryCreate.valid category) ;;
      r <- create_category now category current_user ;; ret (CategoryContent r)
  | PUT_categories_tree categories =>
      check (forest_valid categories) ;;
      r <- save_category_tree categories current_user ;; ret (TreeSaveContent r)
  | PUT_category category_id category =>
      check (opt_valid CategoryUpdate.valid category) ;;
      r <- update_category now category_id category current_user ;; ret (CategoryContent r)
  | PATCH_category category_id patch =>
      check (opt_valid CategoryPatch.valid patch) ;;
      r <- patch_category now category_id patch current_user ;; ret (CategoryContent r)
  | DELETE_category category_id =>
      r <- delete_category category_id current_user ;; ret (DeleteContent r)
  end.

(** [current_user = Depends(get_current_user)]: every route resolves the
    dependency first and passes its value on. *)
Definition depends {A} (api_key : option string) (body : CurrentUser -> Exception + A)
  : Exception + A :=
  current_user <- get_current_user api_key ;; body current_user.

Definition endpoint (now : string) (api_key : option string) (req : Request)
  : Exception + Content :=
  depends api_key (handle now req).

(** The status line: the route's [status_code] on a return, the
    exception's own code otherwise. *)
Definition success_status (req : Request) : Z :=
  match req with
  | POST_categories _ => HTTP_201_CREATED
  | _ => HTTP_200_OK
  end.

Definition status_of (req : Request) (r : Exception + Content) : Z :=
  match r with
  | inr _ => success_status req
  | inl (HTTPException status_code _ _) => status_code
  | inl RequestValidationError => HTTP_422_UNPROCESSABLE_ENTITY
  | inl AttributeError => HTTP_500_INTERNAL_SERVER_ERROR
  end.

Definition is_2xx (status_code : Z) : bool :=
  (200 <=? status_code)%Z && (status_code <? 300)%Z.

Record Response := { status_code : Z; content : Exception + Content }.

Definition respond (now : string) (api_key : option string) (req : Request) : Response :=
  let r := endpoint now api_key req in
  {| status_code := status_of req r; content := r |}.

(** ** The server and the store behind it

    The module opens no database connection and no handler assigns to
    anything outside its own frame, so whatever store sits behind the
    API is the same after a request as before it.  [serve] passes the
    state of that store, of any type, through a request. *)
Definition serve {Store : Type} (s : Store) (now : string) (api_key : option string)
  (req : Request) : Response * Store :=
  (respond now api_key req, s).

(** The lists of a batch-save response, when the response carries one. *)
Definition saved (r : Response) : option TreeSaveResponse.t :=
  match content r with
  | inr (TreeSaveContent t) => Some t
  | _ => None
  end.

(** No element is in both lists. *)
Definition disjoint (l1 l2 : list string) : Prop :=
  forall x, In x l1 -> In x l2 -> False.


(** The response of [save_category_tree], the same on every call. *)
Definition save_example : TreeSaveResponse.t :=
  TreeSaveResponse.mk [uuid_0001; uuid_0002] [uuid_0000] [uuid_0003].

(** The user every accepted credential resolves to. *)
Definition mock_user : CurrentUser :=
  {| userId := "user_2wUsqGRXsrr3oD5dsS8zJtGNXN4" |}.

(** The two rows of the flat listing, as a persisted state to test with. *)
Definition example_rows : list CategoryResponse.t :=
  [ CategoryResponse.mk uuid_0000 "Electronics" None 0 example_time example_time;
    CategoryResponse.mk uuid_0001 "Phones" (Some uuid_0000) 0 example_time example_time ].

(** Bodies for the single-category routes. *)
Definition example_create : CategoryCreate.t :=
  CategoryCreate.mk "Phones" (Some uuid_0000) (Some 0%Z).
Definition example_update : CategoryUpdate.t :=
  CategoryUpdate.mk (Some "Updated Electronics") None (Some 1%Z).

(** The forest that [example_rows] flattens: Electronics above Phones. *)
Definition example_forest : forest :=
  [ CategoryTreeNode.mk uuid_0000 "Electronics"
      [ CategoryTreeNode.mk uuid_0001 "Phones" [] ] ].

(** A forest whose one child repeats the id of its parent. *)
Definition looping_forest : forest :=
  [ CategoryTreeNode.mk uuid_0000 "Electronics"
      [ CategoryTreeNode.mk uuid_0000 "Electronics" [] ] ].

(** A store that is the list of its rows, all of one owner. *)
Definition rows_of (s : list CategoryResponse.t) (owner : string)
  : list CategoryResponse.t := s.

Definition unauthorized : Exception :=
  HTTPException HTTP_401_UNAUTHORIZED "Missing API Key" [("WWW-Authenticate", "Bearer")].

(** ** Requests and responses against their schemas *)



(** The body of a request meets the [Field] constraints of its schema;
    a route without a body has nothing to meet. *)
Definition body_ok (req : Request) : bool :=
  match req with
  | POST_categories category => CategoryCreate.valid category
  | PUT_categories_tree categories => forest_valid categories
  | PUT_category _ category => opt_valid CategoryUpdate.valid category
  | PATCH_category _ patch => opt_valid CategoryPatch.valid patch
  | _ => true
  end.

(** The body parameter that defaults to [None] was left out. *)
Definition body_absent (req : Request) : bool :=
  match req with
  | PUT_category _ None | PATCH_category _ None => true
  | _ => false
  end.

(** The [Field] constraints of the response models: [CategoryResponse]
    and [CategoryTreeNode] inherit the bounds on [name] from
    [CategoryBase]; the other two models have none. *)
Definition response_ok (c : CategoryResponse.t) : bool :=
  name_ok (CategoryResponse.name c).

Definition content_ok (c : Content) : bool :=
  match c with
  | CategoriesContent (AsTree l) => forallb CategoryTreeNode.valid l
  | CategoriesContent (AsFlat l) => forallb response_ok l
  | TreeContent l => forallb CategoryTreeNode.valid l
  | CategoryContent c => response_ok c
  | TreeSaveContent _ => true
  | DeleteContent _ => true
  end.

(** [Optional] with its default: [o if o is not None else d]. *)
Definition default {A} (o : option A) (d : A) : A :=
  match o with
  | Some a => a
  | None => d
  end.

(** ** The OpenAPI schema

    [custom_openapi] replaces [app.openapi].  It returns the schema
    cached in [app.openapi_schema] when there is one; otherwise it takes
    the schema that [get_openapi] generates from the routes, appends the
    [APIKeyHeader] requirement to the [security] list of every operation
    of every path, registers the [APIKeyHeader] scheme under
    [components.securitySchemes], caches the result and returns it.

    The generated schema is a JSON value made of Python dicts and lists.
    A dict is kept as the list of its items in insertion order; each
    nested dict is an object of its own, so the in-place updates of the
    source are updates of the tree.  What [get_openapi] generates is a
    parameter, [generated]. *)
Module OpenAPI.

Inductive Json :=
| JNull
| JBool (b : bool)
| JNum (n : Z)
| JStr (s : string)
| JList (l : list Json)
| JDict (d : list (string * Json)).

Definition dict := list (string * Json).

Inductive Error :=
| KeyError (key : string)
| AttributeError (attr : string)
| TypeError.

(** [d.get(k)] *)
Fixpoint get (k : string) (d : dict) : option Json :=
  match d with
  | [] => None
  | (k', v) :: d => if k' =? k then Some v else get k d
  end.

(** [d[k] = v]: the item keeps its place when the key is there, and
    goes last when it is new. *)
Fixpoint set (k : string) (v : Json) (d : dict) : dict :=
  match d with
  | [] => [(k, v)]
  | (k', v') :: d => if k' =? k then (k', v) :: d else (k', v') :: set k v d
  end.

(** [d.setdefault(k, v)], the dict after the call. *)
Definition setdefault (k : string) (v : Json) (d : dict) : dict :=
  match get k d with
  | Some _ => d
  | None => set k v d
  end.

(** [{"APIKeyHeader": []}] *)
Definition security_requirement : Json := JDict [("APIKeyHeader", JList [])].

Definition security_scheme : Json :=
  JDict [ ("type", JStr "apiKey");
          ("in", JStr "header");
          ("name", JStr "Authorization");
          ("description", JStr "Clerk authorization token with 'Bearer ' prefix") ].

(** The body of the inner loop:
    [method.setdefault("security", [])] and
    [method["security"].append({"APIKeyHeader": []})]. *)
Definition secure_method (method : Json) : Error + Json :=
  match method with
  | JDict m =>
      let m := setdefault "security" (JList []) m in
      match get "security" m with
      | Some (JList l) => inr (JDict (set "security" (JList (l ++ [security_requirement])) m))
      | _ => inl (AttributeError "append")
      end
  | _ => inl (AttributeError "setdefault")
  end.

(** [for v in d.values(): body(v)], the body updating [v] in place; the
    first exception ends the loop. *)
Fixpoint for_values (body : Json -> Error + Json) (d : dict) : Error + dict :=
  match d with
  | [] => inr []
  | (k, v) :: d =>
      match body v with
      | inl e => inl e
      | inr v' =>
          match for_values body d with
          | inl e => inl e
          | inr d' => inr ((k, v') :: d')
          end
      end
  end.

(** [for method in path.values(): ...] *)
Definition secure_path (path : Json) : Error + Json :=
  match path with
  | JDict p =>
      match for_values secure_method p with
      | inl e => inl e
      | inr p' => inr (JDict p')
      end
  | _ => inl (AttributeError "values")
  end.

(** The part of [custom_openapi] between [get_openapi] and the
    assignment to the cache. *)
Definition secure_schema (generated : dict) : Error + dict :=
  match get "paths" generated with
  | None => inl (KeyError "paths")
  | Some (JDict paths) =>
      match for_values secure_path paths with
      | inl e => inl e
      | inr paths' =>
          let openapi_schema := set "paths" (JDict paths') generated in
          match get "components" openapi_schema with
          | None => inl (KeyError "components")
          | Some (JDict components) =>
              let components := setdefault "securitySchemes" (JDict []) components in
              match get "securitySchemes" components with
              | Some (JDict schemes) =>
                  let schemes := set "APIKeyHeader" security_scheme schemes in
                  let components := set "securitySchemes" (JDict schemes) components in
                  inr (set "components" (JDict components) openapi_schema)
              | _ => inl TypeError
              end
          | Some _ => inl (AttributeError "setdefault")
          end
      end
  | Some _ => inl (AttributeError "values")
  end.

(** The one attribute of [app] that the function reads and writes. *)
Record App := { openapi_schema : option dict }.

(** [if app.openapi_schema]: neither [None] nor the empty dict. *)
Definition cached (app : App) : bool :=
  match openapi_schema app with
  | Some (_ :: _) => true
  | _ => false
  end.

Definition custom_openapi (generated : dict) (app : App) : (Error + dict) * App :=
  match openapi_schema app with
  | Some ((_ :: _) as schema) => (inr schema, app)
  | _ =>
      match secure_schema generated with
      | inl e => (inl e, app)
      | inr schema => (inr schema, {| openapi_schema := Some schema |})
      end
  end.

(** The [security] list an operation already has. *)
Definition declared_security (operation : dict) : list Json :=
  match get "security" operation with
  | Some (JList l) => l
  | _ => []
  end.

(** The schemes a components section already has. *)
Definition declared_schemes (components : dict) : dict :=
  match get "securitySchemes" components with
  | Some (JDict d) => d
  | _ => []
  end.

(** The shapes on which no step of [secure_schema] raises. *)
Definition method_ok (method : Json) : bool :=
  match method with
  | JDict m =>
      match get "security" m with
      | None | Some (JList _) => true
      | Some _ => false
      end
  | _ => false
  end.

Definition path_ok (path : Json) : bool :=
  match path with
  | JDict p => forallb (fun kv => method_ok (snd kv)) p
  | _ => false
  end.

Definition components_ok (components : Json) : bool :=
  match components with
  | JDict c =>
      match get "securitySchemes" c with
      | None | Some (JDict _) => true
      | Some _ => false
      end
  | _ => false
  end.

Definition well_shaped (generated : dict) : bool :=
  match get "paths" generated, get "components" generated with
  | Some (JDict paths), Some components =>
      forallb (fun kv => path_ok (snd kv)) paths && components_ok components
  | _, _ => false
  end.

(** A schema of two routes, one operation with a [security] list of its
    own, and a components section without schemes. *)
Definition example_post : dict :=
  [ ("summary", JStr "Create a new category");
    ("security", JList [JDict [("OAuth2", JList [])]]) ].

Definition example_item : dict :=
  [ ("get", JDict [("summary", JStr "Get all categories")]);
    ("post", JDict example_post) ].

Definition example_paths : dict :=
  [ ("/api/categories", JDict example_item);
    ("/api/categories/tree", JDict
       [ ("put", JDict [("summary", JStr "Save entire category tree")]) ]) ].

Definition example_components : dict := [("schemas", JDict [])].

Definition example_generated : dict :=
  [ ("openapi", JStr "3.1.0");
    ("paths", JDict example_paths);
    ("components", JDict example_components) ].

(** A schema of an application without models: no components. *)
Definition example_bare : dict :=
  [ ("openapi", JStr "3.1.0");
    ("paths", JDict [("/docs", JDict [("get", JDict [])])]) ].

(** An application that has not built its schema yet. *)
Definition fresh_app : App := {| openapi_schema := None |}.

(** What [secure_schema] makes of [example_generated]. *)
Definition example_secured : dict :=
  Eval cbv in
    match secure_schema example_generated with
    | inr schema => schema
    | inl _ => []
    end.

End OpenAPI.

(** ** The request on the wire

    What the framework does with a request before the handler is
    called, in its own order: it reads the body of a route that declares
    one, resolves [Depends(get_current_user)], and binds the path, query
    and body parameters to their types.

    The body as it arrives.  When the content type is JSON or is not
    given, the bytes are decoded: they may not be text ([Undecodable])
    or the text may not be JSON ([Malformed]).  Otherwise the body is
    nothing ([Absent]: no bytes, or the JSON value [null]), a value
    that has not the shape of the schema ([Misfit], which includes
    bytes of another content type), or a value of the schema type
    ([Decoded]). *)
Inductive Payload (A : Type) :=
| Undecodable
| Malformed
| Absent
| Misfit
| Decoded (a : A).

Arguments Undecodable {A}.
Arguments Malformed {A}.
Arguments Absent {A}.
Arguments Misfit {A}.
Arguments Decoded {A} a.

Inductive WireRequest :=
| Wire_GET_categories (format : option string)
| Wire_GET_categories_tree
| Wire_GET_category (category_id : string)
| Wire_POST_categories (body : Payload CategoryCreate.t)
| Wire_PUT_categories_tree (body : Payload forest)
| Wire_PUT_category (category_id : string) (body : Payload CategoryUpdate.t)
| Wire_PATCH_category (category_id : string) (body : Payload CategoryPatch.t)
| Wire_DELETE_category (category_id : string).

Definition HTTP_400_BAD_REQUEST : Z := 400.

(** Raised when reading the body fails with anything but a JSON decode
    error. *)
Definition body_error : Exception :=
  HTTPException HTTP_400_BAD_REQUEST "There was an error parsing the body" [].

Definition undecodable (w : WireRequest) : bool :=
  match w with
  | Wire_POST_categories Undecodable
  | Wire_PUT_categories_tree Undecodable
  | Wire_PUT_category _ Undecodable
  | Wire_PATCH_category _ Undecodable => true
  | _ => false
  end.

Definition malformed (w : WireRequest) : bool :=
  match w with
  | Wire_POST_categories Malformed
  | Wire_PUT_categories_tree Malformed
  | Wire_PUT_category _ Malformed
  | Wire_PATCH_category _ Malformed => true
  | _ => false
  end.

(** The body is read, for the four routes with a body parameter, before
    any dependency is resolved. *)
Definition read_body (w : WireRequest) : Exception + unit :=
  if undecodable w then raise body_error
  else if malformed w then raise RequestValidationError
  else ret tt.

(** A body parameter without a default. *)
Definition required {A} (body : Payload A) : Exception + A :=
  match body with
  | Decoded a => ret a
  | _ => raise RequestValidationError
  end.

(** A body parameter that defaults to [None]. *)
Definition optional {A} (body : Payload A) : Exception + option A :=
  match body with
  | Decoded a => ret (Some a)
  | Absent => ret None
  | _ => raise RequestValidationError
  end.

(** [Optional[FormatEnum]]: the values of the enum are "tree" and
    "flat". *)
Definition parse_format (format : option string) : Exception + option FormatEnum :=
  match format with
  | None => ret None
  | Some s =>
      if s =? "tree" then ret (Some TREE)
      else if s =? "flat" then ret (Some FLAT)
      else raise RequestValidationError
  end.

Definition bind_params (w : WireRequest) : Exception + Request :=
  match w with
  | Wire_GET_categories format =>
      format <- parse_format format ;; ret (GET_categories format)
  | Wire_GET_categories_tree => ret GET_categories_tree
  | Wire_GET_category category_id => ret (GET_category category_id)
  | Wire_POST_categories body =>
      category <- required body ;; ret (POST_categories category)
  | Wire_PUT_categories_tree body =>
      categories <- required body ;; ret (PUT_categories_tree categories)
  | Wire_PUT_category category_id body =>
      category <- optional body ;; ret (PUT_category category_id category)
  | Wire_PATCH_category category_id body =>
      patch <- optional body ;; ret (PATCH_category category_id patch)
  | Wire_DELETE_category category_id => ret (DELETE_category category_id)
  end.

(** The request handler of a route: body, dependency, parameters,
    handler. *)
Definition app (now : string) (api_key : option string) (w : WireRequest)
  : Exception + Content :=
  read_body w ;;
  depends api_key (fun current_user =>
    req <- bind_params w ;; handle now req current_user).

Definition wire_success_status (w : WireRequest) : Z :=
  match w with
  | Wire_POST_categories _ => HTTP_201_CREATED
  | _ => HTTP_200_OK
  end.

Definition wire_status_of (w : WireRequest) (r : Exception + Content) : Z :=
  match r with
  | inr _ => wire_success_status w
  | inl (HTTPException status_code _ _) => status_code
  | inl RequestValidationError => HTTP_422_UNPROCESSABLE_ENTITY
  | inl AttributeError => HTTP_500_INTERNAL_SERVER_ERROR
  end.

Definition wire_respond (now : string) (api_key : option string) (w : WireRequest)
  : Response :=
  let r := app now api_key w in
  {| status_code := wire_status_of w r; content := r |}.

(** A decoded request as it was on the wire. *)
Definition format_value (format : FormatEnum) : string :=
  match format with
  | TREE => "tree"
  | FLAT => "flat"
  end.

Definition sent {A} (body : option A) : Payload A :=
  match body with
  | Some a => Decoded a
  | None => Absent
  end.

Definition wire_of (req : Request) : WireRequest :=
  match req with
  | GET_categories format => Wire_GET_categories (option_map format_value format)
  | GET_categories_tree => Wire_GET_categories_tree
  | GET_category category_id => Wire_GET_category category_id
  | POST_categories category => Wire_POST_categories (Decoded category)
  | PUT_categories_tree categories => Wire_PUT_categories_tree (Decoded categories)
  | PUT_category category_id category => Wire_PUT_category category_id (sent category)
  | PATCH_category category_id patch => Wire_PATCH_category category_id (sent patch)
  | DELETE_category category_id => Wire_DELETE_category category_id
  end.

(** A name of sixty two-byte characters. *)
Definition e_acute : string :=
  String (Ascii.ascii_of_nat 195) (String (Ascii.ascii_of_nat 169) EmptyString).

Definition sixty_accents : string := String.concat "" (List.repeat e_acute 60).

(** * Properties *)

(** ** Sample runs *)

Example run_save_tree :
  endpoint "2023-07-15T12:00:00" (Some API_KEY) (PUT_categories_tree example_forest)
  = inr (TreeSaveContent
           (TreeSaveResponse.mk [uuid_0001; uuid_0002] [uuid_0000] [uuid_0003])).
Proof. reflexivity. Qed.

Example run_no_header :
  respond "2023-07-15T12:00:00" None GET_categories_tree
  = {| status_code := 401;
       content := inl (HTTPException 401 "Missing API Key" [("WWW-Authenticate", "Bearer")]) |}.
Proof. reflexivity. Qed.

Example run_empty_header :
  status_code (respond "2023-07-15T12:00:00" (Some "") (DELETE_category uuid_0000)) = 401%Z.
Proof. reflexivity. Qed.

Example run_create :
  respond "2023-07-15T12:00:00" (Some API_KEY) (POST_categories example_create)
  = {| status_code := 201;
       content := inr (CategoryContent
         (CategoryResponse.mk uuid_0000 "Phones" (Some uuid_0000) 0
            "2023-07-15T12:00:00Z" "2023-07-15T12:00:00Z")) |}.
Proof. reflexivity. Qed.

Example run_create_empty_name :
  status_code (respond "2023-07-15T12:00:00" (Some API_KEY)
                 (POST_categories (CategoryCreate.mk "" None None))) = 422%Z.
Proof. reflexivity. Qed.

Example run_patch_order_zero :
  respond "2023-07-15T12:00:00" (Some API_KEY)
    (PATCH_category uuid_0001 (Some (CategoryPatch.mk None None (Some 0%Z))))
  = {| status_code := 200;
       content := inr (CategoryContent
         (CategoryResponse.mk uuid_0001 "Patched Category" None 1
            example_time "2023-07-15T12:00:00Z")) |}.
Proof. reflexivity. Qed.

Example run_update_without_body :
  respond "2023-07-15T12:00:00" (Some API_KEY) (PUT_category uuid_0001 None)
  = {| status_code := 500; content := inl AttributeError |}.
Proof. reflexivity. Qed.

Example run_flat_listing :
  endpoint "2023-07-15T12:00:00" (Some API_KEY) (GET_categories (Some FLAT))
  = inr (CategoriesContent (AsFlat example_rows)).
Proof. reflexivity. Qed.

Example run_malformed_body_without_header :
  status_code (wire_respond "2023-07-15T12:00:00" None (Wire_POST_categories Malformed))
  = 422%Z.
Proof. reflexivity. Qed.

Example run_undecodable_body_without_header :
  status_code (wire_respond "2023-07-15T12:00:00" None (Wire_PUT_categories_tree Undecodable))
  = 400%Z.
Proof. reflexivity. Qed.

Example run_misfit_body_without_header :
  status_code (wire_respond "2023-07-15T12:00:00" None (Wire_PUT_categories_tree Misfit))
  = 401%Z.
Proof. reflexivity. Qed.

Example run_unknown_format :
  status_code (wire_respond "2023-07-15T12:00:00" (Some API_KEY)
                 (Wire_GET_categories (Some "table"))) = 422%Z.
Proof. reflexivity. Qed.

Example run_sixty_accents :
  String.length sixty_accents = 120 /\ code_points sixty_accents = 60 /\
  status_code (respond "2023-07-15T12:00:00" (Some API_KEY)
                 (PUT_categories_tree [CategoryTreeNode.mk uuid_0000 sixty_accents []]))
  = 200%Z.
Proof. repeat split. Qed.

(** ** The dependency and the batch save, computed once *)

Lemma truthy_str_false (k : option string) :
  Py.truthy_str k = false <-> k = None \/ k = Some "".
Proof.
  destruct k as [s|]; simpl.
  - rewrite negb_false_iff, String.eqb_eq. split.
    + intros ->. now right.
    + intros [H|H]; congruence.
  - split; auto.
Qed.

Lemma get_current_user_spec (k : option string) :
  get_current_user k = if Py.truthy_str k then inr mock_user else inl unauthorized.
Proof. unfold get_current_user. now destruct (Py.truthy_str k). Qed.

Lemma depends_spec {A} (k : option string) (body : CurrentUser -> Exception + A) :
  depends k body = if Py.truthy_str k then body mock_user else inl unauthorized.
Proof.
  unfold depends. rewrite get_current_user_spec.
  now destruct (Py.truthy_str k).
Qed.

Lemma endpoint_accepted (now : string) (k : option string) (req : Request) :
  Py.truthy_str k = true -> endpoint now k req = handle now req mock_user.
Proof. intros H. unfold endpoint. now rewrite depends_spec, H. Qed.

Lemma save_endpoint (now : string) (k : option string) (T : forest) :
  Py.truthy_str k = true -> forest_valid T = true ->
  endpoint now k (PUT_categories_tree T) = inr (TreeSaveContent save_example).
Proof.
  intros Hk HT. rewrite endpoint_accepted by assumption.
  cbn [handle]. now rewrite HT.
Qed.

Lemma save_respond (now : string) (k : option string) (T : forest) :
  Py.truthy_str k = true -> forest_valid T = true ->
  respond now k (PUT_categories_tree T)
  = {| status_code := HTTP_200_OK; content := inr (TreeSaveContent save_example) |}.
Proof.
  intros Hk HT. unfold respond. now rewrite save_endpoint.
Qed.

Lemma name_ok_nonempty (s : string) : name_ok s = true -> (s =? "") = false.
Proof.
  destruct s as [|a s]; [discriminate|]. reflexivity.
Qed.

Lemma or_int_zero (o : option Z) : Py.or_int o 0 = default o 0%Z.
Proof.
  destruct o as [n|]; [|reflexivity]. simpl.
  destruct (Z.eqb_spec n 0); simpl; congruence.
Qed.

Lemma or_str_default (o : option string) (d : string) :
  opt_name_ok o = true -> Py.or_str o d = default o d.
Proof.
  destruct o as [s|]; [|reflexivity]. simpl. intros H.
  now rewrite (name_ok_nonempty s H).
Qed.

Lemma uuids_distinct :
  uuid_0000 <> uuid_0001 /\ uuid_0000 <> uuid_0002 /\ uuid_0000 <> uuid_0003 /\
  uuid_0001 <> uuid_0002 /\ uuid_0001 <> uuid_0003 /\ uuid_0002 <> uuid_0003.
Proof. repeat split; apply String.eqb_neq; reflexivity. Qed.

Lemma save_example_disjoint :
  disjoint (TreeSaveResponse.created save_example) (TreeSaveResponse.updated save_example) /\
  disjoint (TreeSaveResponse.created save_example) (TreeSaveResponse.deleted save_example) /\
  disjoint (TreeSaveResponse.updated save_example) (TreeSaveResponse.deleted save_example).
Proof.
  destruct uuids_distinct as (H01 & H02 & H03 & H12 & H13 & H23).
  unfold disjoint; simpl.
  repeat split; intros x H1 H2; intuition congruence.
Qed.

Section Claims.

Context {Store : Type}.

(** The store's read interface, [listByOwner(userId)]. *)
Variable listByOwner : Store -> string -> list CategoryResponse.t.

Lemma serve_store (s : Store) (now : string) (k : option string) (req : Request) :
  snd (serve s now k req) = s.
Proof. reflexivity. Qed.

(** C3: for every submitted tree and persisted state the batch save,
    called with a credential and a schema-valid body, returns three id
    lists, and no id is in more than one of [created], [updated] and
    [deleted]. *)
Theorem save_lists_pairwise_disjoint
  (s : Store) (now : string) (k : option string) (T : forest) :
  Py.truthy_str k = true -> forest_valid T = true ->
  exists r,
    saved (fst (serve s now k (PUT_categories_tree T))) = Some r /\
    disjoint (TreeSaveResponse.created r) (TreeSaveResponse.updated r) /\
    disjoint (TreeSaveResponse.created r) (TreeSaveResponse.deleted r) /\
    disjoint (TreeSaveResponse.updated r) (TreeSaveResponse.deleted r).
Proof.
  intros Hk HT. exists save_example. split.
  - unfold serve, saved. cbn [fst]. now rewrite save_respond.
  - exact save_example_disjoint.
Qed.

(** C10: for every [category_id] and every request with a credential,
    the delete route answers 200 with [success = True], [deleted] the
    supplied id, [hasChildren = False] and [childCount = 0]; the status
    is never 404. *)
Theorem delete_always_succeeds
  (s : Store) (now : string) (k : option string) (category_id : string) :
  Py.truthy_str k = true ->
  fst (serve s now k (DELETE_category category_id))
  = {| status_code := HTTP_200_OK;
       content := inr (DeleteContent (DeleteResponse.mk true category_id false 0)) |}
  /\ status_code (fst (serve s now k (DELETE_category category_id))) <> HTTP_404_NOT_FOUND.
Proof.
  intros Hk.
  assert (E : fst (serve s now k (DELETE_category category_id))
              = {| status_code := HTTP_200_OK;
                   content := inr (DeleteContent (DeleteResponse.mk true category_id false 0)) |}).
  { unfold serve, respond. cbn [fst]. now rewrite endpoint_accepted. }
  split; [exact E|]. rewrite E. discriminate.
Qed.

(** C2 (amended): submitting a tree again returns what the first
    submission returned, the lists [created = [..0001; ..0002]],
    [updated = [..0000]] and [deleted = [..0003]], and the store is the
    same after both calls; the lists of the second call are not empty. *)
Theorem resave_same_response
  (s : Store) (now1 now2 : string) (k : option string) (T : forest) :
  Py.truthy_str k = true -> forest_valid T = true ->
  let (r1, s1) := serve s now1 k (PUT_categories_tree T) in
  let (r2, s2) := serve s1 now2 k (PUT_categories_tree T) in
  r2 = r1 /\
  saved r2 = Some (TreeSaveResponse.mk [uuid_0001; uuid_0002] [uuid_0000] [uuid_0003]) /\
  s2 = s.
Proof.
  intros Hk HT. unfold serve. rewrite !save_respond by assumption.
  repeat split.
Qed.

(** C4 (amended): a submitted tree in which an id recurs on its own
    ancestor chain is not rejected; with a credential and schema-valid
    names the batch save answers 200 with the fixed lists, and the store
    is not touched. *)
Theorem cyclic_tree_accepted
  (s : Store) (now : string) (k : option string) (T : forest) :
  forest_cyclic T = true ->
  Py.truthy_str k = true -> forest_valid T = true ->
  serve s now k (PUT_categories_tree T)
  = ({| status_code := HTTP_200_OK; content := inr (TreeSaveContent save_example) |}, s)
  /\ is_2xx (status_code (fst (serve s now k (PUT_categories_tree T)))) = true.
Proof.
  intros _ Hk HT. unfold serve. rewrite save_respond by assumption.
  split; reflexivity.
Qed.

(** C5 (amended): the [deleted] list of a batch save called with a
    credential and a schema-valid body is [[..0003]], whichever
    persisted nodes the submitted tree leaves out; a persisted id is in
    it exactly when it is that one id. *)
Theorem deleted_is_fixed
  (s : Store) (now : string) (k : option string) (T : forest) :
  Py.truthy_str k = true -> forest_valid T = true ->
  exists r,
    saved (fst (serve s now k (PUT_categories_tree T))) = Some r /\
    TreeSaveResponse.deleted r = [uuid_0003] /\
    forall row, In row (listByOwner s (userId mock_user)) ->
      (In (CategoryResponse.id row) (TreeSaveResponse.deleted r)
       <-> CategoryResponse.id row = uuid_0003).
Proof.
  intros Hk HT. exists save_example. split; [|split].
  - unfold serve, saved. cbn [fst]. now rewrite save_respond.
  - reflexivity.
  - intros row _. simpl. intuition.
Qed.

(** C8 (amended): an empty submission with a credential returns the
    fixed lists [created = [..0001; ..0002]], [updated = [..0000]] and
    [deleted = [..0003]] whatever is persisted, and every persisted row
    is still listed afterwards. *)
Theorem empty_submission_fixed
  (s : Store) (now : string) (k : option string) (owner : string) :
  Py.truthy_str k = true ->
  saved (fst (serve s now k (PUT_categories_tree [])))
  = Some (TreeSaveResponse.mk [uuid_0001; uuid_0002] [uuid_0000] [uuid_0003])
  /\ listByOwner (snd (serve s now k (PUT_categories_tree []))) owner = listByOwner s owner.
Proof.
  intros Hk. unfold serve, saved. cbn [fst snd].
  rewrite save_respond by (assumption || reflexivity).
  split; reflexivity.
Qed.

(** C9 (amended): for every submitted tree the returned [created] and
    [updated] ids are together ..0000, ..0001 and ..0002, independent of
    the ids of the tree; so their union with any retained ids is the id
    set of the tree only when the tree carries these three ids. *)
Theorem created_updated_fixed
  (s : Store) (now : string) (k : option string) (T : forest) :
  Py.truthy_str k = true -> forest_valid T = true ->
  exists r,
    saved (fst (serve s now k (PUT_categories_tree T))) = Some r /\
    (forall x, In x (TreeSaveResponse.created r ++ TreeSaveResponse.updated r)
               <-> x = uuid_0000 \/ x = uuid_0001 \/ x = uuid_0002) /\
    (forall retained,
       (forall x, In x (TreeSaveResponse.created r ++ TreeSaveResponse.updated r ++ retained)
                  <-> In x (forest_ids T)) ->
       In uuid_0000 (forest_ids T) /\ In uuid_0001 (forest_ids T) /\ In uuid_0002 (forest_ids T)).
Proof using Type.
  clear listByOwner.
  intros Hk HT. exists save_example. split; [|split].
  - unfold serve, saved. cbn [fst]. now rewrite save_respond.
  - intros x. simpl. intuition congruence.
  - intros retained H. repeat split; apply H; simpl; tauto.
Qed.

End Claims.

(** ** Claims about the routes alone *)

Lemma app_spec (now : string) (k : option string) (w : WireRequest) :
  app now k w
  = if undecodable w then inl body_error
    else if malformed w then inl RequestValidationError
    else if Py.truthy_str k
         then (req <- bind_params w ;; handle now req mock_user)
         else inl unauthorized.
Proof.
  unfold app, read_body. rewrite depends_spec.
  destruct (undecodable w); [reflexivity|].
  destruct (malformed w); reflexivity.
Qed.

(** C6 (amended): on each of the eight routes the body, where the route
    takes one, is read first, and bytes that cannot be decoded are
    answered 400 and text that is not JSON 422, whatever the header;
    after that, when the [Authorization] header is missing or empty the
    request fails with 401 "Missing API Key" before any parameter is
    bound and without the handler body being run, whatever that body
    is; every other header value is accepted as it is and the handler
    runs for the one mock user. *)
Theorem credential_gate (k : option string) :
  (forall A (body : CurrentUser -> Exception + A),
     depends k body = if Py.truthy_str k then body mock_user else inl unauthorized) /\
  (forall now req,
     respond now k req =
     if Py.truthy_str k
     then {| status_code := status_of req (handle now req mock_user);
             content := handle now req mock_user |}
     else {| status_code := HTTP_401_UNAUTHORIZED; content := inl unauthorized |}) /\
  (forall now w,
     wire_respond now k w =
     if undecodable w
     then {| status_code := HTTP_400_BAD_REQUEST; content := inl body_error |}
     else if malformed w
     then {| status_code := HTTP_422_UNPROCESSABLE_ENTITY;
             content := inl RequestValidationError |}
     else if Py.truthy_str k
     then {| status_code :=
               wire_status_of w (req <- bind_params w ;; handle now req mock_user);
             content := req <- bind_params w ;; handle now req mock_user |}
     else {| status_code := HTTP_401_UNAUTHORIZED; content := inl unauthorized |}).
Proof.
  split; [|split].
  - intros A body. apply depends_spec.
  - intros now req. unfold respond, endpoint. rewrite depends_spec.
    now destruct (Py.truthy_str k).
  - intros now w. unfold wire_respond. rewrite app_spec.
    destruct (undecodable w); [reflexivity|].
    destruct (malformed w); [reflexivity|].
    now destruct (Py.truthy_str k).
Qed.


(** ** Instances

    Each theorem with a hypothesis, applied to a request that meets it:
    the credential [API_KEY], the store [example_rows] and the forests
    above. *)

Lemma save_lists_pairwise_disjoint_witness :
  Py.truthy_str (Some API_KEY) = true /\ forest_valid example_forest = true /\
  exists r,
    saved (fst (serve example_rows "2023-07-15T12:00:00" (Some API_KEY)
                  (PUT_categories_tree example_forest))) = Some r /\
    disjoint (TreeSaveResponse.created r) (TreeSaveResponse.updated r) /\
    disjoint (TreeSaveResponse.created r) (TreeSaveResponse.deleted r) /\
    disjoint (TreeSaveResponse.updated r) (TreeSaveResponse.deleted r).
Proof.
  split; [reflexivity|]. split; [reflexivity|].
  apply (save_lists_pairwise_disjoint example_rows "2023-07-15T12:00:00"
           (Some API_KEY) example_forest); reflexivity.
Defined.

Lemma delete_always_succeeds_witness :
  Py.truthy_str (Some API_KEY) = true /\
  fst (serve example_rows "2023-07-15T12:00:00" (Some API_KEY) (DELETE_category "no-such-id"))
  = {| status_code := HTTP_200_OK;
       content := inr (DeleteContent (DeleteResponse.mk true "no-such-id" false 0)) |}
  /\ status_code (fst (serve example_rows "2023-07-15T12:00:00" (Some API_KEY)
                         (DELETE_category "no-such-id"))) <> HTTP_404_NOT_FOUND.
Proof.
  split; [reflexivity|].
  apply (delete_always_succeeds example_rows "2023-07-15T12:00:00" (Some API_KEY)
           "no-such-id"); reflexivity.
Defined.

Lemma resave_same_response_witness :
  Py.truthy_str (Some API_KEY) = true /\ forest_valid example_forest = true /\
  let (r1, s1) := serve example_rows "2023-07-15T12:00:00" (Some API_KEY)
                    (PUT_categories_tree example_forest) in
  let (r2, s2) := serve s1 "2023-07-15T12:00:01" (Some API_KEY)
                    (PUT_categories_tree example_forest) in
  r2 = r1 /\
  saved r2 = Some (TreeSaveResponse.mk [uuid_0001; uuid_0002] [uuid_0000] [uuid_0003]) /\
  s2 = example_rows.
Proof.
  split; [reflexivity|]. split; [reflexivity|].
  apply (resave_same_response example_rows "2023-07-15T12:00:00" "2023-07-15T12:00:01"
           (Some API_KEY) example_forest); reflexivity.
Defined.

Lemma cyclic_tree_accepted_witness :
  forest_cyclic looping_forest = true /\
  Py.truthy_str (Some API_KEY) = true /\ forest_valid looping_forest = true /\
  serve example_rows "2023-07-15T12:00:00" (Some API_KEY) (PUT_categories_tree looping_forest)
  = ({| status_code := HTTP_200_OK; content := inr (TreeSaveContent save_example) |},
     example_rows)
  /\ is_2xx (status_code (fst (serve example_rows "2023-07-15T12:00:00" (Some API_KEY)
                                 (PUT_categories_tree looping_forest)))) = true.
Proof.
  split; [reflexivity|]. split; [reflexivity|]. split; [reflexivity|].
  apply (cyclic_tree_accepted example_rows "2023-07-15T12:00:00" (Some API_KEY)
           looping_forest); reflexivity.
Defined.

Lemma deleted_is_fixed_witness :
  Py.truthy_str (Some API_KEY) = true /\ forest_valid [] = true /\
  exists r,
    saved (fst (serve example_rows "2023-07-15T12:00:00" (Some API_KEY)
                  (PUT_categories_tree []))) = Some r /\
    TreeSaveResponse.deleted r = [uuid_0003] /\
    forall row, In row (rows_of example_rows (userId mock_user)) ->
      (In (CategoryResponse.id row) (TreeSaveResponse.deleted r)
       <-> CategoryResponse.id row = uuid_0003).
Proof.
  split; [reflexivity|]. split; [reflexivity|].
  apply (deleted_is_fixed rows_of example_rows "2023-07-15T12:00:00" (Some API_KEY) []);
    reflexivity.
Defined.

Lemma empty_submission_fixed_witness :
  Py.truthy_str (Some API_KEY) = true /\
  saved (fst (serve example_rows "2023-07-15T12:00:00" (Some API_KEY)
                (PUT_categories_tree [])))
  = Some (TreeSaveResponse.mk [uuid_0001; uuid_0002] [uuid_0000] [uuid_0003])
  /\ rows_of (snd (serve example_rows "2023-07-15T12:00:00" (Some API_KEY)
                     (PUT_categories_tree []))) (userId mock_user)
     = rows_of example_rows (userId mock_user).
Proof.
  split; [reflexivity|].
  apply (empty_submission_fixed rows_of example_rows "2023-07-15T12:00:00" (Some API_KEY)
           (userId mock_user)); reflexivity.
Defined.

Lemma created_updated_fixed_witness :
  Py.truthy_str (Some API_KEY) = true /\ forest_valid example_forest = true /\
  exists r,
    saved (fst (serve example_rows "2023-07-15T12:00:00" (Some API_KEY)
                  (PUT_categories_tree example_forest))) = Some r /\
    (forall x, In x (TreeSaveResponse.created r ++ TreeSaveResponse.updated r)
               <-> x = uuid_0000 \/ x = uuid_0001 \/ x = uuid_0002) /\
    (forall retained,
       (forall x, In x (TreeSaveResponse.created r ++ TreeSaveResponse.updated r ++ retained)
                  <-> In x (forest_ids example_forest)) ->
       In uuid_0000 (forest_ids example_forest) /\
       In uuid_0001 (forest_ids example_forest) /\
       In uuid_0002 (forest_ids example_forest)).
Proof.
  split; [reflexivity|]. split; [reflexivity|].
  apply (created_updated_fixed example_rows "2023-07-15T12:00:00" (Some API_KEY)
           example_forest); reflexivity.
Defined.


(** ** Where the claims as written fail *)


(** C2: the store holds exactly the submitted forest, which is then
    saved twice; neither response has three empty lists. *)
Lemma resubmission_lists_not_empty :
  map CategoryResponse.id example_rows = forest_ids example_forest /\
  let (r1, s1) := serve example_rows "2023-07-15T12:00:00" (Some API_KEY)
                    (PUT_categories_tree example_forest) in
  let (r2, s2) := serve s1 "2023-07-15T12:00:01" (Some API_KEY)
                    (PUT_categories_tree example_forest) in
  ~ (exists r, saved r2 = Some r /\
               TreeSaveResponse.created r = [] /\
               TreeSaveResponse.updated r = [] /\
               TreeSaveResponse.deleted r = []).
Proof.
  split; [reflexivity|]. cbn.
  intros (r & Hr & Hc & _). inversion Hr; subst r. discriminate Hc.
Qed.

(** C4: a forest whose child repeats its parent's id is answered with
    200, not rejected. *)
Lemma looping_forest_not_rejected :
  forest_cyclic looping_forest = true /\
  is_2xx (status_code (fst (serve example_rows "2023-07-15T12:00:00" (Some API_KEY)
                              (PUT_categories_tree looping_forest)))) = true.
Proof. split; reflexivity. Qed.

(** C5: Electronics is persisted with its descendant Phones and absent
    from the empty submission, and neither id is in [deleted]. *)
Lemma absent_node_not_in_deleted :
  let row := CategoryResponse.mk uuid_0000 "Electronics" None 0 example_time example_time in
  In row (rows_of example_rows (userId mock_user)) /\
  ~ In (CategoryResponse.id row) (forest_ids []) /\
  exists r,
    saved (fst (serve example_rows "2023-07-15T12:00:00" (Some API_KEY)
                  (PUT_categories_tree []))) = Some r /\
    ~ In uuid_0000 (TreeSaveResponse.deleted r) /\
    ~ In uuid_0001 (TreeSaveResponse.deleted r).
Proof.
  destruct uuids_distinct as (H01 & H02 & H03 & H12 & H13 & H23).
  cbn. split; [now left|]. split; [tauto|].
  eexists. split; [reflexivity|]. cbn. split; intros [H|[]]; congruence.
Qed.

(** C6: a header value that is not [API_KEY] reaches the handler and is
    answered with 200. *)
Lemma wrong_key_accepted :
  Some "wrong_key" <> Some API_KEY /\
  respond "2023-07-15T12:00:00" (Some "wrong_key") (DELETE_category uuid_0000)
  = {| status_code := HTTP_200_OK;
       content := inr (DeleteContent (DeleteResponse.mk true uuid_0000 false 0)) |}.
Proof. split; [discriminate|reflexivity]. Qed.

(** C8: an empty submission against two persisted rows reports two
    created ids and one updated id, and its [deleted] list misses the
    persisted ids. *)
Lemma empty_submission_not_delete_all :
  rows_of example_rows (userId mock_user) <> [] /\
  exists r,
    saved (fst (serve example_rows "2023-07-15T12:00:00" (Some API_KEY)
                  (PUT_categories_tree []))) = Some r /\
    TreeSaveResponse.created r <> [] /\
    TreeSaveResponse.updated r <> [] /\
    ~ (forall x, In x (TreeSaveResponse.deleted r)
                 <-> In x (map CategoryResponse.id (rows_of example_rows (userId mock_user)))).
Proof.
  destruct uuids_distinct as (H01 & H02 & H03 & H12 & H13 & H23).
  split; [discriminate|].
  eexists. split; [reflexivity|]. cbn.
  split; [discriminate|]. split; [discriminate|].
  intros H. destruct (proj1 (H uuid_0003) (or_introl eq_refl)) as [E|[E|[]]]; congruence.
Qed.

(** C9: for the empty forest, no choice of retained ids makes the union
    of [created], [updated] and retained the id set of the forest. *)
Lemma union_not_tree_ids :
  exists r,
    saved (fst (serve example_rows "2023-07-15T12:00:00" (Some API_KEY)
                  (PUT_categories_tree []))) = Some r /\
    forall retained,
      ~ (forall x, In x (TreeSaveResponse.created r ++ TreeSaveResponse.updated r ++ retained)
                   <-> In x (forest_ids [])).
Proof.
  eexists. split; [reflexivity|].
  intros retained H. apply (proj1 (H uuid_0001)). cbn. now left.
Qed.

(** * Further properties of the handlers *)






Lemma app_decoded (now : string) (k : option string) (req : Request) :
  app now k (wire_of req) = endpoint now k req.
Proof.
  rewrite app_spec. unfold endpoint. rewrite depends_spec.
  destruct req as [[[|]|]| |i|c|T|i [u|]|i [p|]|i]; reflexivity.
Qed.

(** X1: the status of every response of the eight routes is decided by
    these tests, in this order: 400 when the body cannot be decoded, 422
    when it is not JSON, 401 when the [Authorization] header is missing
    or empty, 422 when a parameter or the body has not the shape of its
    schema or breaks a [Field] constraint, 500 when the body of an
    update or a patch was left out, and otherwise the status of the
    route, 201 for the create route and 200 for the others.  No request
    that reaches one of these routes is answered with 404. *)
Theorem status_decision (now : string) (k : option string) (w : WireRequest) :
  status_code (wire_respond now k w)
  = (if undecodable w then HTTP_400_BAD_REQUEST
     else if malformed w then HTTP_422_UNPROCESSABLE_ENTITY
     else if negb (Py.truthy_str k) then HTTP_401_UNAUTHORIZED
     else match bind_params w with
          | inl _ => HTTP_422_UNPROCESSABLE_ENTITY
          | inr req =>
              if negb (body_ok req) then HTTP_422_UNPROCESSABLE_ENTITY
              else if body_absent req then HTTP_500_INTERNAL_SERVER_ERROR
              else success_status req
          end)
  /\ status_code (wire_respond now k w) <> HTTP_404_NOT_FOUND.
Proof.
  assert (E : status_code (wire_respond now k w)
              = (if undecodable w then HTTP_400_BAD_REQUEST
                 else if malformed w then HTTP_422_UNPROCESSABLE_ENTITY
                 else if negb (Py.truthy_str k) then HTTP_401_UNAUTHORIZED
                 else match bind_params w with
                      | inl _ => HTTP_422_UNPROCESSABLE_ENTITY
                      | inr req =>
                          if negb (body_ok req) then HTTP_422_UNPROCESSABLE_ENTITY
                          else if body_absent req then HTTP_500_INTERNAL_SERVER_ERROR
                          else success_status req
                      end)).
  { unfold wire_respond. cbn [status_code]. rewrite app_spec.
    destruct (Py.truthy_str k);
      destruct w as [[s|]| |i|[| | | |c]|[| | | |T]|i [| | | |u]|i [| | | |p]|i];
      cbn [undecodable malformed bind_params required optional parse_format negb];
      try reflexivity.
    - destruct (s =? "tree"); [reflexivity|]. destruct (s =? "flat"); reflexivity.
    - cbn. destruct (CategoryCreate.valid c); reflexivity.
    - cbn. destruct (forest_valid T); reflexivity.
    - cbn. destruct (CategoryUpdate.valid u); reflexivity.
    - cbn. destruct (CategoryPatch.valid p); reflexivity. }
  rewrite E. clear E. split; [reflexivity|].
  destruct (undecodable w); [discriminate|].
  destruct (malformed w); [discriminate|].
  destruct (negb (Py.truthy_str k)); [discriminate|].
  destruct (bind_params w) as [e|req]; [discriminate|].
  destruct (negb (body_ok req)); [discriminate|].
  destruct (body_absent req); [discriminate|].
  destruct req; discriminate.
Qed.

(** X2: whatever a route returns meets the [Field] constraints of its
    response model: every category and every tree node of a response
    has a name of 1 to 100 characters, also where the name was left out
    of an update or a patch. *)
Theorem responses_meet_their_model
  (now : string) (k : option string) (req : Request) (c : Content) :
  endpoint now k req = inr c -> content_ok c = true.
Proof.
  unfold endpoint. rewrite depends_spec.
  destruct (Py.truthy_str k); [|discriminate].
  destruct req as [f| |i|cr|T|i [u|]|i [p|]|i]; cbn [handle opt_valid].
  - destruct f as [[|]|]; intros E; inversion E; reflexivity.
  - intros E; inversion E; reflexivity.
  - intros E; inversion E; reflexivity.
  - destruct (CategoryCreate.valid cr) eqn:V; [|discriminate].
    intros E; inversion E. cbn. unfold CategoryCreate.valid in V.
    now apply andb_true_iff in V.
  - destruct (forest_valid T); [|discriminate]. intros E; inversion E; reflexivity.
  - destruct (CategoryUpdate.valid u) eqn:V; [|discriminate].
    intros E; inversion E. unfold CategoryUpdate.valid in V.
    apply andb_true_iff in V as [Vn _]. cbn.
    rewrite (or_str_default _ _ Vn).
    destruct (CategoryUpdate.name u); [exact Vn|reflexivity].
  - discriminate.
  - destruct (CategoryPatch.valid p) eqn:V; [|discriminate].
    intros E; inversion E. unfold CategoryPatch.valid in V.
    apply andb_true_iff in V as [Vn _]. cbn.
    rewrite (or_str_default _ _ Vn).
    destruct (CategoryPatch.name p); [exact Vn|reflexivity].
  - discriminate.
  - intros E; inversion E; reflexivity.
Qed.

(** X3: a create request with a credential and a valid body returns the
    submitted name and parent, the submitted order or 0 when it was left
    out, and one creation time for [createdAt] and [updatedAt]; the id
    is the same for every created category. *)
Theorem create_echoes_body (now : string) (k : option string) (c : CategoryCreate.t) :
  Py.truthy_str k = true -> CategoryCreate.valid c = true ->
  respond now k (POST_categories c)
  = {| status_code := HTTP_201_CREATED;
       content := inr (CategoryContent
         (CategoryResponse.mk uuid_0000
            (CategoryCreate.name c) (CategoryCreate.parentId c)
            (default (CategoryCreate.order c) 0%Z)
            (now ++ "Z") (now ++ "Z"))) |}.
Proof.
  intros Hk Hc. unfold respond. rewrite endpoint_accepted by assumption.
  cbn [handle]. rewrite Hc. cbn. now rewrite or_int_zero.
Qed.

(** X4: an update with a credential and a valid body returns the id of
    the path, the submitted parent, the submitted name or "Updated
    Category" when it was left out, the submitted order or 0 when it was
    left out, the fixed creation time and the time of the call. *)
Theorem update_echoes_body
  (now : string) (k : option string) (category_id : string) (u : CategoryUpdate.t) :
  Py.truthy_str k = true -> CategoryUpdate.valid u = true ->
  respond now k (PUT_category category_id (Some u))
  = {| status_code := HTTP_200_OK;
       content := inr (CategoryContent
         (CategoryResponse.mk category_id
            (default (CategoryUpdate.name u) "Updated Category")
            (CategoryUpdate.parentId u)
            (default (CategoryUpdate.order u) 0%Z)
            example_time (now ++ "Z"))) |}.
Proof.
  intros Hk Hu. unfold respond. rewrite endpoint_accepted by assumption.
  cbn [handle opt_valid]. rewrite Hu. cbn.
  unfold CategoryUpdate.valid in Hu. apply andb_true_iff in Hu as [Hn _].
  now rewrite or_int_zero, (or_str_default _ _ Hn).
Qed.

(** X5: a patch with a credential and a valid body returns the submitted
    name or "Patched Category", the submitted parent, and an order of at
    least 1: a submitted order above 0 comes back as it is, an order of
    0 or none comes back as 1. *)
Theorem patch_order_at_least_one
  (now : string) (k : option string) (category_id : string) (p : CategoryPatch.t) :
  Py.truthy_str k = true -> CategoryPatch.valid p = true ->
  exists r,
    respond now k (PATCH_category category_id (Some p))
    = {| status_code := HTTP_200_OK; content := inr (CategoryContent r) |} /\
    CategoryResponse.id r = category_id /\
    CategoryResponse.name r = default (CategoryPatch.name p) "Patched Category" /\
    CategoryResponse.parentId r = CategoryPatch.parentId p /\
    (1 <= CategoryResponse.order r)%Z /\
    (forall n, CategoryPatch.order p = Some n -> (0 < n)%Z -> CategoryResponse.order r = n) /\
    (CategoryPatch.order p = None \/ CategoryPatch.order p = Some 0%Z ->
     CategoryResponse.order r = 1%Z).
Proof.
  intros Hk Hp. eexists. split.
  - unfold respond. rewrite endpoint_accepted by assumption.
    cbn [handle opt_valid]. rewrite Hp. cbn. reflexivity.
  - unfold CategoryPatch.valid in Hp. apply andb_true_iff in Hp as [Hn Ho].
    cbn. rewrite (or_str_default _ _ Hn).
    split; [reflexivity|]. split; [reflexivity|].
    split; [now destruct (CategoryPatch.parentId p)|].
    destruct (CategoryPatch.order p) as [n|]; cbn in *.
    + apply Z.leb_le in Ho. destruct (Z.eqb_spec n 0); cbn.
      * split; [lia|]. split; [intros m [= <-]; lia|reflexivity].
      * split; [lia|]. split; [intros m [= <-]; reflexivity|].
        intros [H|[= H]]; [discriminate|contradiction].
    + split; [lia|]. split; [discriminate|reflexivity].
Qed.

(** X6: the tree route, documented as a shortcut for the listing with
    [format=tree], returns another forest than that listing does, with
    or without the [format] parameter: its ids are among those of the
    listing, and the node ..0002 of the listing is missing from it. *)
Theorem tree_shortcut_differs
  (now : string) (k : option string) (format : option FormatEnum) :
  Py.truthy_str k = true -> format <> Some FLAT ->
  exists shortcut listing,
    endpoint now k GET_categories_tree = inr (TreeContent shortcut) /\
    endpoint now k (GET_categories format) = inr (CategoriesContent (AsTree listing)) /\
    shortcut <> listing /\
    incl (forest_ids shortcut) (forest_ids listing) /\
    In uuid_0002 (forest_ids listing) /\
    ~ In uuid_0002 (forest_ids shortcut).
Proof.
  intros Hk Hf. destruct uuids_distinct as (H01 & H02 & H03 & H12 & H13 & H23).
  do 2 eexists. rewrite !endpoint_accepted by assumption. cbn [handle].
  split; [reflexivity|]. split.
  - destruct format as [[|]|]; [reflexivity|contradiction|reflexivity].
  - split; [discriminate|]. cbn. split.
    + intros x Hx. cbn in *. intuition.
    + split; [intuition|]. intros H. intuition congruence.
Qed.


(** * Properties of the OpenAPI schema *)

(** ** Dicts *)

Lemma get_set_same (k : string) (v : OpenAPI.Json) (d : OpenAPI.dict) :
  OpenAPI.get k (OpenAPI.set k v d) = Some v.
Proof.
  induction d as [|[k' v'] d IH]; cbn.
  - now rewrite String.eqb_refl.
  - destruct (k' =? k) eqn:E; cbn; rewrite E; [reflexivity|exact IH].
Qed.

Lemma get_set_other (k k' : string) (v : OpenAPI.Json) (d : OpenAPI.dict) :
  k' <> k -> OpenAPI.get k' (OpenAPI.set k v d) = OpenAPI.get k' d.
Proof.
  intros N. induction d as [|[k0 v0] d IH]; cbn.
  - apply String.eqb_neq in N. rewrite String.eqb_sym in N. now rewrite N.
  - destruct (String.eqb_spec k0 k) as [->|Nk]; cbn.
    + destruct (String.eqb_spec k k'); [congruence|reflexivity].
    + destruct (k0 =? k'); [reflexivity|exact IH].
Qed.

Lemma keys_set_present (k : string) (v w : OpenAPI.Json) (d : OpenAPI.dict) :
  OpenAPI.get k d = Some w -> map fst (OpenAPI.set k v d) = map fst d.
Proof.
  induction d as [|[k0 v0] d IH]; cbn; [discriminate|].
  destruct (k0 =? k); cbn; [reflexivity|]. intros H. now rewrite IH.
Qed.

Lemma keys_set_absent (k : string) (v : OpenAPI.Json) (d : OpenAPI.dict) :
  OpenAPI.get k d = None -> map fst (OpenAPI.set k v d) = (map fst d ++ [k])%list.
Proof.
  induction d as [|[k0 v0] d IH]; cbn; [reflexivity|].
  destruct (k0 =? k); cbn; [discriminate|]. intros H. now rewrite IH.
Qed.

Lemma set_set_same (k : string) (v w : OpenAPI.Json) (d : OpenAPI.dict) :
  OpenAPI.set k v (OpenAPI.set k w d) = OpenAPI.set k v d.
Proof.
  induction d as [|[k0 v0] d IH]; cbn.
  - now rewrite String.eqb_refl.
  - destruct (k0 =? k) eqn:E; cbn; rewrite E; [reflexivity|now rewrite IH].
Qed.

Lemma set_not_empty (k : string) (v : OpenAPI.Json) (d : OpenAPI.dict) :
  exists e d', OpenAPI.set k v d = e :: d'.
Proof.
  destruct d as [|[k0 v0] d]; cbn; [eauto|]. destruct (k0 =? k); eauto.
Qed.

(** ** The loops *)

Lemma for_values_keys (body : OpenAPI.Json -> OpenAPI.Error + OpenAPI.Json)
  (d d' : OpenAPI.dict) :
  OpenAPI.for_values body d = inr d' -> map fst d' = map fst d.
Proof.
  revert d'. induction d as [|[k v] d IH]; cbn; intros d' H.
  - now inversion H.
  - destruct (body v); [discriminate|].
    destruct (OpenAPI.for_values body d); [discriminate|].
    inversion H. cbn. now rewrite (IH _ eq_refl).
Qed.

Lemma for_values_get (body : OpenAPI.Json -> OpenAPI.Error + OpenAPI.Json)
  (d d' : OpenAPI.dict) (k : string) (v : OpenAPI.Json) :
  OpenAPI.for_values body d = inr d' -> OpenAPI.get k d = Some v ->
  exists v', body v = inr v' /\ OpenAPI.get k d' = Some v'.
Proof.
  revert d'. induction d as [|[k0 v0] d IH]; cbn; intros d' H G; [discriminate|].
  destruct (body v0) as [|v0'] eqn:B; [discriminate|].
  destruct (OpenAPI.for_values body d) as [|d0]; [discriminate|].
  inversion H; subst d'. cbn. destruct (k0 =? k).
  - inversion G; subst v0. eauto.
  - apply (IH d0 eq_refl G).
Qed.

Lemma for_values_total (body : OpenAPI.Json -> OpenAPI.Error + OpenAPI.Json)
  (ok : OpenAPI.Json -> bool) (d : OpenAPI.dict) :
  (forall v, ok v = true <-> exists v', body v = inr v') ->
  forallb (fun kv => ok (snd kv)) d = true <-> exists d', OpenAPI.for_values body d = inr d'.
Proof.
  intros Hok. induction d as [|[k v] d IH]; cbn.
  - split; eauto.
  - rewrite andb_true_iff, IH, Hok. split.
    + intros [[v' Hv] [d' Hd]]. rewrite Hv, Hd. eauto.
    + destruct (body v) as [|v']; [intros [? [=]]|].
      destruct (OpenAPI.for_values body d) as [|d']; [intros [? [=]]|]. eauto.
Qed.

Lemma secure_method_spec (op : OpenAPI.dict) (m' : OpenAPI.Json) :
  OpenAPI.secure_method (OpenAPI.JDict op) = inr m' ->
  exists op',
    m' = OpenAPI.JDict op' /\
    OpenAPI.get "security" op'
    = Some (OpenAPI.JList (OpenAPI.declared_security op ++ [OpenAPI.security_requirement])) /\
    (forall k, k <> "security" -> OpenAPI.get k op' = OpenAPI.get k op) /\
    map fst op'
    = (map fst op
       ++ match OpenAPI.get "security" op with Some _ => [] | None => ["security"] end)%list.
Proof.
  unfold OpenAPI.secure_method, OpenAPI.setdefault, OpenAPI.declared_security.
  destruct (OpenAPI.get "security" op) as [s|] eqn:G.
  - rewrite G. destruct s; try discriminate. intros [= <-]. eexists. split; [reflexivity|].
    split; [apply get_set_same|]. split.
    + intros k N. now apply get_set_other.
    + rewrite app_nil_r. eapply keys_set_present, G.
  - rewrite get_set_same. intros [= <-]. eexists. split; [reflexivity|].
    split; [apply get_set_same|]. split.
    + intros k N. now rewrite !get_set_other by assumption.
    + erewrite keys_set_present by apply get_set_same. now apply keys_set_absent.
Qed.

Lemma secure_method_total (m : OpenAPI.Json) :
  OpenAPI.method_ok m = true <-> exists m', OpenAPI.secure_method m = inr m'.
Proof.
  destruct m as [| | | | |op]; cbn; try (split; [discriminate|intros [? [=]]]).
  unfold OpenAPI.setdefault.
  destruct (OpenAPI.get "security" op) as [s|] eqn:G.
  - rewrite G. destruct s; split; try discriminate; try (intros [? [=]]); eauto.
  - rewrite get_set_same. split; eauto.
Qed.

Lemma secure_path_total (p : OpenAPI.Json) :
  OpenAPI.path_ok p = true <-> exists p', OpenAPI.secure_path p = inr p'.
Proof.
  destruct p as [| | | | |ms]; cbn; try (split; [discriminate|intros [? [=]]]).
  rewrite (for_values_total OpenAPI.secure_method OpenAPI.method_ok ms secure_method_total).
  destruct (OpenAPI.for_values OpenAPI.secure_method ms); split;
    try (intros [? [=]]); eauto.
Qed.

(** ** The schema that is built *)

Lemma secure_schema_inv (g S : OpenAPI.dict) :
  OpenAPI.secure_schema g = inr S ->
  exists ps ps' cs,
    OpenAPI.get "paths" g = Some (OpenAPI.JDict ps) /\
    OpenAPI.for_values OpenAPI.secure_path ps = inr ps' /\
    OpenAPI.get "components" g = Some (OpenAPI.JDict cs) /\
    OpenAPI.components_ok (OpenAPI.JDict cs) = true /\
    S = OpenAPI.set "components"
          (OpenAPI.JDict
             (OpenAPI.set "securitySchemes"
                (OpenAPI.JDict
                   (OpenAPI.set "APIKeyHeader" OpenAPI.security_scheme
                      (OpenAPI.declared_schemes cs)))
                cs))
          (OpenAPI.set "paths" (OpenAPI.JDict ps') g).
Proof.
  unfold OpenAPI.secure_schema.
  destruct (OpenAPI.get "paths" g) as [[| | | | |ps]|]; try discriminate.
  destruct (OpenAPI.for_values OpenAPI.secure_path ps) as [|ps'] eqn:F; [discriminate|].
  cbv zeta. rewrite get_set_other by discriminate.
  destruct (OpenAPI.get "components" g) as [[| | | | |cs]|]; try discriminate.
  unfold OpenAPI.setdefault, OpenAPI.declared_schemes. cbn [OpenAPI.components_ok].
  destruct (OpenAPI.get "securitySchemes" cs) as [ss|] eqn:G.
  - rewrite G. destruct ss; try discriminate. intros [= <-].
    exists ps, ps', cs. rewrite G. repeat split; assumption.
  - rewrite get_set_same. intros [= <-].
    exists ps, ps', cs. rewrite G, set_set_same. repeat split; assumption.
Qed.

Lemma secure_schema_total (g : OpenAPI.dict) :
  OpenAPI.well_shaped g = true <-> exists S, OpenAPI.secure_schema g = inr S.
Proof.
  split.
  - unfold OpenAPI.well_shaped, OpenAPI.secure_schema.
    destruct (OpenAPI.get "paths" g) as [[| | | | |ps]|]; try discriminate.
    destruct (OpenAPI.get "components" g) as [c|] eqn:Gc; [|discriminate].
    rewrite andb_true_iff. intros [Hp Hc].
    apply (for_values_total OpenAPI.secure_path OpenAPI.path_ok ps secure_path_total)
      in Hp as [ps' Hp].
    rewrite Hp. cbv zeta. rewrite get_set_other by discriminate. rewrite Gc.
    destruct c as [| | | | |cs]; try discriminate.
    cbn in Hc. unfold OpenAPI.setdefault.
    destruct (OpenAPI.get "securitySchemes" cs) as [ss|] eqn:G.
    + rewrite G. destruct ss; try discriminate. eauto.
    + rewrite get_set_same. eauto.
  - intros [S H]. apply secure_schema_inv in H as (ps & ps' & cs & Gp & F & Gc & Hc & _).
    unfold OpenAPI.well_shaped. rewrite Gp, Gc, Hc, andb_true_r.
    apply (for_values_total OpenAPI.secure_path OpenAPI.path_ok ps secure_path_total).
    eauto.
Qed.

(** X8: with nothing cached, [custom_openapi] returns a schema, and
    caches it, exactly when the generated schema has a dict of paths,
    each a dict of operation dicts whose [security] is absent or a list,
    and a components dict whose [securitySchemes] is absent or a dict;
    on any other schema it raises. *)
Theorem custom_openapi_succeeds_iff (generated : OpenAPI.dict) (app : OpenAPI.App) :
  OpenAPI.cached app = false ->
  (OpenAPI.well_shaped generated = true <->
   exists S, OpenAPI.custom_openapi generated app
             = (inr S, {| OpenAPI.openapi_schema := Some S |})).
Proof.
  intros Hc. unfold OpenAPI.custom_openapi. unfold OpenAPI.cached in Hc.
  rewrite secure_schema_total.
  destruct (OpenAPI.openapi_schema app) as [[|e d]|]; try discriminate;
    (destruct (OpenAPI.secure_schema generated) as [err|S]; split;
     [intros [? [=]] | intros [? [=]] | eauto | eauto]).
Qed.

(** X9: once [custom_openapi] has returned a schema, every later call
    returns that same schema and leaves the cache as it is, whatever
    would be generated then: the requirement is appended to an operation
    once, not once per call. *)
Theorem custom_openapi_caches
  (generated generated' : OpenAPI.dict) (app app' : OpenAPI.App) (S : OpenAPI.dict) :
  OpenAPI.custom_openapi generated app = (inr S, app') ->
  OpenAPI.custom_openapi generated' app' = (inr S, app').
Proof.
  unfold OpenAPI.custom_openapi.
  destruct (OpenAPI.openapi_schema app) as [[|e d]|] eqn:C.
  2: { intros [= <- <-]. now rewrite C. }
  all: destruct (OpenAPI.secure_schema generated) as [err|S0] eqn:B; [discriminate|];
    intros [= <- <-]; cbn;
    apply secure_schema_inv in B as (ps & ps' & cs & _ & _ & _ & _ & ->);
    destruct (set_not_empty "components"
                (OpenAPI.JDict
                   (OpenAPI.set "securitySchemes"
                      (OpenAPI.JDict
                         (OpenAPI.set "APIKeyHeader" OpenAPI.security_scheme
                            (OpenAPI.declared_schemes cs))) cs))
                (OpenAPI.set "paths" (OpenAPI.JDict ps') generated)) as (e0 & d0 & ->);
    reflexivity.
Qed.

(** X10: when the generated schema has well-shaped paths but no
    [components] key, as for an application without models,
    [custom_openapi] raises [KeyError('components')] and caches nothing,
    so every call fails the same way. *)
Theorem custom_openapi_without_components
  (generated : OpenAPI.dict) (ps : OpenAPI.dict) (app : OpenAPI.App) :
  OpenAPI.cached app = false ->
  OpenAPI.get "paths" generated = Some (OpenAPI.JDict ps) ->
  forallb (fun kv => OpenAPI.path_ok (snd kv)) ps = true ->
  OpenAPI.get "components" generated = None ->
  OpenAPI.custom_openapi generated app = (inl (OpenAPI.KeyError "components"), app).
Proof.
  intros Hc Gp Hp Gc. unfold OpenAPI.custom_openapi, OpenAPI.secure_schema.
  unfold OpenAPI.cached in Hc. rewrite Gp.
  apply (for_values_total OpenAPI.secure_path OpenAPI.path_ok ps secure_path_total)
    in Hp as [ps' Hp].
  rewrite Hp. cbv zeta. rewrite get_set_other by discriminate. rewrite Gc.
  destruct (OpenAPI.openapi_schema app) as [[|e d]|]; try discriminate; reflexivity.
Qed.

(** X11: in the schema that [custom_openapi] builds, every operation of
    every path has a [security] list that is the list it had, or the
    empty list, followed by the one requirement [{"APIKeyHeader": []}];
    every other field of the operation is as generated. *)
Theorem every_operation_requires_key
  (generated : OpenAPI.dict) (app : OpenAPI.App) (S ps ms op : OpenAPI.dict)
  (path method : string) :
  OpenAPI.cached app = false ->
  OpenAPI.custom_openapi generated app = (inr S, {| OpenAPI.openapi_schema := Some S |}) ->
  OpenAPI.get "paths" generated = Some (OpenAPI.JDict ps) ->
  OpenAPI.get path ps = Some (OpenAPI.JDict ms) ->
  OpenAPI.get method ms = Some (OpenAPI.JDict op) ->
  exists ps' ms' op',
    OpenAPI.get "paths" S = Some (OpenAPI.JDict ps') /\
    OpenAPI.get path ps' = Some (OpenAPI.JDict ms') /\
    OpenAPI.get method ms' = Some (OpenAPI.JDict op') /\
    OpenAPI.get "security" op'
    = Some (OpenAPI.JList (OpenAPI.declared_security op ++ [OpenAPI.security_requirement])) /\
    forall k, k <> "security" -> OpenAPI.get k op' = OpenAPI.get k op.
Proof.
  intros Hc H Gp Gpath Gm. unfold OpenAPI.custom_openapi, OpenAPI.cached in *.
  assert (B : OpenAPI.secure_schema generated = inr S).
  { destruct (OpenAPI.openapi_schema app) as [[|e d]|]; try discriminate;
      destruct (OpenAPI.secure_schema generated); inversion H; reflexivity. }
  clear H Hc.
  apply secure_schema_inv in B as (ps0 & ps' & cs & Gp' & F & _ & _ & ->).
  rewrite Gp in Gp'. inversion Gp'; subst ps0.
  destruct (for_values_get _ _ _ _ _ F Gpath) as (p' & Hp & Gpath').
  cbn in Hp.
  destruct (OpenAPI.for_values OpenAPI.secure_method ms) as [|ms'] eqn:Fm; [discriminate|].
  inversion Hp; subst p'.
  destruct (for_values_get _ _ _ _ _ Fm Gm) as (m' & Hm & Gm').
  apply secure_method_spec in Hm as (op' & -> & Hsec & Hrest & _).
  exists ps', ms', op'. split.
  - rewrite get_set_other by discriminate. apply get_set_same.
  - auto.
Qed.

(** X12: the schema that [custom_openapi] builds documents the routes
    that were generated: the paths are the same and in the same order,
    and under each path so are the methods. *)
Theorem routes_are_kept
  (generated : OpenAPI.dict) (app : OpenAPI.App) (S ps : OpenAPI.dict) :
  OpenAPI.cached app = false ->
  OpenAPI.custom_openapi generated app = (inr S, {| OpenAPI.openapi_schema := Some S |}) ->
  OpenAPI.get "paths" generated = Some (OpenAPI.JDict ps) ->
  exists ps',
    OpenAPI.get "paths" S = Some (OpenAPI.JDict ps') /\
    map fst ps' = map fst ps /\
    forall path ms, OpenAPI.get path ps = Some (OpenAPI.JDict ms) ->
      exists ms', OpenAPI.get path ps' = Some (OpenAPI.JDict ms') /\
                  map fst ms' = map fst ms.
Proof.
  intros Hc H Gp. unfold OpenAPI.custom_openapi, OpenAPI.cached in *.
  assert (B : OpenAPI.secure_schema generated = inr S).
  { destruct (OpenAPI.openapi_schema app) as [[|e d]|]; try discriminate;
      destruct (OpenAPI.secure_schema generated); inversion H; reflexivity. }
  clear H Hc.
  apply secure_schema_inv in B as (ps0 & ps' & cs & Gp' & F & _ & _ & ->).
  rewrite Gp in Gp'. inversion Gp'; subst ps0.
  exists ps'. split; [|split].
  - rewrite get_set_other by discriminate. apply get_set_same.
  - eapply for_values_keys, F.
  - intros path ms Gpath.
    destruct (for_values_get _ _ _ _ _ F Gpath) as (p' & Hp & Gpath').
    cbn in Hp.
    destruct (OpenAPI.for_values OpenAPI.secure_method ms) as [|ms'] eqn:Fm; [discriminate|].
    inversion Hp; subst p'. exists ms'. split; [exact Gpath'|].
    eapply for_values_keys, Fm.
Qed.

(** X13: the schema that [custom_openapi] builds has the scheme
    [APIKeyHeader], an API key in the [Authorization] header, under
    [components.securitySchemes], in place of any scheme generated under
    that name; the other schemes, the other sections of [components] and
    the other top-level entries are as generated. *)
Theorem scheme_is_registered
  (generated : OpenAPI.dict) (app : OpenAPI.App) (S cs : OpenAPI.dict) :
  OpenAPI.cached app = false ->
  OpenAPI.custom_openapi generated app = (inr S, {| OpenAPI.openapi_schema := Some S |}) ->
  OpenAPI.get "components" generated = Some (OpenAPI.JDict cs) ->
  exists cs' ss',
    OpenAPI.get "components" S = Some (OpenAPI.JDict cs') /\
    OpenAPI.get "securitySchemes" cs' = Some (OpenAPI.JDict ss') /\
    OpenAPI.get "APIKeyHeader" ss' = Some OpenAPI.security_scheme /\
    (forall k, k <> "APIKeyHeader" ->
       OpenAPI.get k ss' = OpenAPI.get k (OpenAPI.declared_schemes cs)) /\
    (forall k, k <> "securitySchemes" -> OpenAPI.get k cs' = OpenAPI.get k cs) /\
    (forall k, k <> "paths" -> k <> "components" ->
       OpenAPI.get k S = OpenAPI.get k generated).
Proof.
  intros Hc H Gc. unfold OpenAPI.custom_openapi, OpenAPI.cached in *.
  assert (B : OpenAPI.secure_schema generated = inr S).
  { destruct (OpenAPI.openapi_schema app) as [[|e d]|]; try discriminate;
      destruct (OpenAPI.secure_schema generated); inversion H; reflexivity. }
  clear H Hc.
  apply secure_schema_inv in B as (ps & ps' & cs0 & _ & _ & Gc' & _ & ->).
  rewrite Gc in Gc'. inversion Gc'; subst cs0.
  do 2 eexists. split; [apply get_set_same|]. split; [apply get_set_same|].
  split; [apply get_set_same|].
  split; [|split].
  - intros k N. now apply get_set_other.
  - intros k N. now apply get_set_other.
  - intros k N1 N2. now rewrite !get_set_other by assumption.
Qed.

(** ** Instances of the further properties *)

Lemma responses_meet_their_model_witness :
  endpoint "2023-07-15T12:00:00" (Some API_KEY)
    (PUT_category uuid_0001 (Some (CategoryUpdate.mk None (Some uuid_0000) None)))
  = inr (CategoryContent
           (CategoryResponse.mk uuid_0001 "Updated Category" (Some uuid_0000) 0
              example_time "2023-07-15T12:00:00Z")) /\
  content_ok (CategoryContent
                (CategoryResponse.mk uuid_0001 "Updated Category" (Some uuid_0000) 0
                   example_time "2023-07-15T12:00:00Z")) = true.
Proof.
  split; [reflexivity|].
  apply (responses_meet_their_model "2023-07-15T12:00:00" (Some API_KEY)
           (PUT_category uuid_0001 (Some (CategoryUpdate.mk None (Some uuid_0000) None))));
    reflexivity.
Defined.

Lemma create_echoes_body_witness :
  Py.truthy_str (Some API_KEY) = true /\
  CategoryCreate.valid (CategoryCreate.mk "Tablets" (Some uuid_0000) None) = true /\
  respond "2023-07-15T12:00:00" (Some API_KEY)
    (POST_categories (CategoryCreate.mk "Tablets" (Some uuid_0000) None))
  = {| status_code := HTTP_201_CREATED;
       content := inr (CategoryContent
         (CategoryResponse.mk uuid_0000 "Tablets" (Some uuid_0000)
            (default None 0%Z)
            ("2023-07-15T12:00:00" ++ "Z") ("2023-07-15T12:00:00" ++ "Z"))) |}.
Proof.
  split; [reflexivity|]. split; [reflexivity|].
  apply (create_echoes_body "2023-07-15T12:00:00" (Some API_KEY)
           (CategoryCreate.mk "Tablets" (Some uuid_0000) None)); reflexivity.
Defined.

Lemma update_echoes_body_witness :
  Py.truthy_str (Some API_KEY) = true /\
  CategoryUpdate.valid example_update = true /\
  respond "2023-07-15T12:00:00" (Some API_KEY) (PUT_category uuid_0001 (Some example_update))
  = {| status_code := HTTP_200_OK;
       content := inr (CategoryContent
         (CategoryResponse.mk uuid_0001
            (default (CategoryUpdate.name example_update) "Updated Category")
            (CategoryUpdate.parentId example_update)
            (default (CategoryUpdate.order example_update) 0%Z)
            example_time ("2023-07-15T12:00:00" ++ "Z"))) |}.
Proof.
  split; [reflexivity|]. split; [reflexivity|].
  apply (update_echoes_body "2023-07-15T12:00:00" (Some API_KEY) uuid_0001 example_update);
    reflexivity.
Defined.

Lemma patch_order_at_least_one_witness :
  Py.truthy_str (Some API_KEY) = true /\
  CategoryPatch.valid (CategoryPatch.mk None None (Some 0%Z)) = true /\
  exists r,
    respond "2023-07-15T12:00:00" (Some API_KEY)
      (PATCH_category uuid_0001 (Some (CategoryPatch.mk None None (Some 0%Z))))
    = {| status_code := HTTP_200_OK; content := inr (CategoryContent r) |} /\
    CategoryResponse.id r = uuid_0001 /\
    CategoryResponse.name r = default None "Patched Category" /\
    CategoryResponse.parentId r = None /\
    (1 <= CategoryResponse.order r)%Z /\
    (forall n, Some 0%Z = Some n -> (0 < n)%Z -> CategoryResponse.order r = n) /\
    (Some 0%Z = None \/ Some 0%Z = Some 0%Z -> CategoryResponse.order r = 1%Z).
Proof.
  split; [reflexivity|]. split; [reflexivity|].
  apply (patch_order_at_least_one "2023-07-15T12:00:00" (Some API_KEY) uuid_0001
           (CategoryPatch.mk None None (Some 0%Z))); reflexivity.
Defined.

Lemma tree_shortcut_differs_witness :
  Py.truthy_str (Some API_KEY) = true /\ Some TREE <> Some FLAT /\
  exists shortcut listing,
    endpoint "2023-07-15T12:00:00" (Some API_KEY) GET_categories_tree
    = inr (TreeContent shortcut) /\
    endpoint "2023-07-15T12:00:00" (Some API_KEY) (GET_categories (Some TREE))
    = inr (CategoriesContent (AsTree listing)) /\
    shortcut <> listing /\
    incl (forest_ids shortcut) (forest_ids listing) /\
    In uuid_0002 (forest_ids listing) /\
    ~ In uuid_0002 (forest_ids shortcut).
Proof.
  split; [reflexivity|]. split; [discriminate|].
  apply (tree_shortcut_differs "2023-07-15T12:00:00" (Some API_KEY) (Some TREE));
    [reflexivity|discriminate].
Defined.


Lemma custom_openapi_succeeds_iff_witness :
  OpenAPI.cached OpenAPI.fresh_app = false /\
  (OpenAPI.well_shaped OpenAPI.example_generated = true <->
   exists S, OpenAPI.custom_openapi OpenAPI.example_generated OpenAPI.fresh_app
             = (inr S, {| OpenAPI.openapi_schema := Some S |})).
Proof.
  split; [reflexivity|].
  apply (custom_openapi_succeeds_iff OpenAPI.example_generated OpenAPI.fresh_app);
    reflexivity.
Defined.

Lemma custom_openapi_caches_witness :
  OpenAPI.custom_openapi OpenAPI.example_generated OpenAPI.fresh_app
  = (inr OpenAPI.example_secured, {| OpenAPI.openapi_schema := Some OpenAPI.example_secured |}) /\
  OpenAPI.custom_openapi OpenAPI.example_bare
    {| OpenAPI.openapi_schema := Some OpenAPI.example_secured |}
  = (inr OpenAPI.example_secured, {| OpenAPI.openapi_schema := Some OpenAPI.example_secured |}).
Proof.
  split; [reflexivity|].
  apply (custom_openapi_caches OpenAPI.example_generated OpenAPI.example_bare
           OpenAPI.fresh_app); reflexivity.
Defined.

Lemma custom_openapi_without_components_witness :
  OpenAPI.cached OpenAPI.fresh_app = false /\
  OpenAPI.get "paths" OpenAPI.example_bare
  = Some (OpenAPI.JDict [("/docs", OpenAPI.JDict [("get", OpenAPI.JDict [])])]) /\
  forallb (fun kv => OpenAPI.path_ok (snd kv))
    [("/docs", OpenAPI.JDict [("get", OpenAPI.JDict [])])] = true /\
  OpenAPI.get "components" OpenAPI.example_bare = None /\
  OpenAPI.custom_openapi OpenAPI.example_bare OpenAPI.fresh_app
  = (inl (OpenAPI.KeyError "components"), OpenAPI.fresh_app).
Proof.
  do 4 (split; [reflexivity|]).
  apply (custom_openapi_without_components OpenAPI.example_bare
           [("/docs", OpenAPI.JDict [("get", OpenAPI.JDict [])])] OpenAPI.fresh_app);
    reflexivity.
Defined.

Lemma every_operation_requires_key_witness :
  OpenAPI.cached OpenAPI.fresh_app = false /\
  OpenAPI.custom_openapi OpenAPI.example_generated OpenAPI.fresh_app
  = (inr OpenAPI.example_secured, {| OpenAPI.openapi_schema := Some OpenAPI.example_secured |}) /\
  OpenAPI.get "paths" OpenAPI.example_generated = Some (OpenAPI.JDict OpenAPI.example_paths) /\
  OpenAPI.get "/api/categories" OpenAPI.example_paths
  = Some (OpenAPI.JDict OpenAPI.example_item) /\
  OpenAPI.get "post" OpenAPI.example_item = Some (OpenAPI.JDict OpenAPI.example_post) /\
  exists ps' ms' op',
    OpenAPI.get "paths" OpenAPI.example_secured = Some (OpenAPI.JDict ps') /\
    OpenAPI.get "/api/categories" ps' = Some (OpenAPI.JDict ms') /\
    OpenAPI.get "post" ms' = Some (OpenAPI.JDict op') /\
    OpenAPI.get "security" op'
    = Some (OpenAPI.JList (OpenAPI.declared_security OpenAPI.example_post
                           ++ [OpenAPI.security_requirement])) /\
    forall k, k <> "security" -> OpenAPI.get k op' = OpenAPI.get k OpenAPI.example_post.
Proof.
  do 5 (split; [reflexivity|]).
  apply (every_operation_requires_key OpenAPI.example_generated OpenAPI.fresh_app
           OpenAPI.example_secured OpenAPI.example_paths OpenAPI.example_item
           OpenAPI.example_post "/api/categories" "post"); reflexivity.
Defined.

Lemma routes_are_kept_witness :
  OpenAPI.cached OpenAPI.fresh_app = false /\
  OpenAPI.custom_openapi OpenAPI.example_generated OpenAPI.fresh_app
  = (inr OpenAPI.example_secured, {| OpenAPI.openapi_schema := Some OpenAPI.example_secured |}) /\
  OpenAPI.get "paths" OpenAPI.example_generated = Some (OpenAPI.JDict OpenAPI.example_paths) /\
  exists ps',
    OpenAPI.get "paths" OpenAPI.example_secured = Some (OpenAPI.JDict ps') /\
    map fst ps' = map fst OpenAPI.example_paths /\
    forall path ms, OpenAPI.get path OpenAPI.example_paths = Some (OpenAPI.JDict ms) ->
      exists ms', OpenAPI.get path ps' = Some (OpenAPI.JDict ms') /\
                  map fst ms' = map fst ms.
Proof.
  do 3 (split; [reflexivity|]).
  apply (routes_are_kept OpenAPI.example_generated OpenAPI.fresh_app
           OpenAPI.example_secured OpenAPI.example_paths); reflexivity.
Defined.

Lemma scheme_is_registered_witness :
  OpenAPI.cached OpenAPI.fresh_app = false /\
  OpenAPI.custom_openapi OpenAPI.example_generated OpenAPI.fresh_app
  = (inr OpenAPI.example_secured, {| OpenAPI.openapi_schema := Some OpenAPI.example_secured |}) /\
  OpenAPI.get "components" OpenAPI.example_generated
  = Some (OpenAPI.JDict OpenAPI.example_components) /\
  exists cs' ss',
    OpenAPI.get "components" OpenAPI.example_secured = Some (OpenAPI.JDict cs') /\
    OpenAPI.get "securitySchemes" cs' = Some (OpenAPI.JDict ss') /\
    OpenAPI.get "APIKeyHeader" ss' = Some OpenAPI.security_scheme /\
    (forall k, k <> "APIKeyHeader" ->
       OpenAPI.get k ss' = OpenAPI.get k (OpenAPI.declared_schemes OpenAPI.example_components)) /\
    (forall k, k <> "securitySchemes" ->
       OpenAPI.get k cs' = OpenAPI.get k OpenAPI.example_components) /\
    (forall k, k <> "paths" -> k <> "components" ->
       OpenAPI.get k OpenAPI.example_secured = OpenAPI.get k OpenAPI.example_generated).
Proof.
  do 3 (split; [reflexivity|]).
  apply (scheme_is_registered OpenAPI.example_generated OpenAPI.fresh_app
           OpenAPI.example_secured OpenAPI.example_components); reflexivity.
Defined.

(** The schema built from [example_generated], in full: the operation
    that had a requirement keeps it before the new one, the others get a
    list of one, and the scheme is entered under a new
    [securitySchemes]. *)
Example run_custom_openapi :
  fst (OpenAPI.custom_openapi OpenAPI.example_generated OpenAPI.fresh_app)
  = inr
      [ ("openapi", OpenAPI.JStr "3.1.0");
        ("paths", OpenAPI.JDict
           [ ("/api/categories", OpenAPI.JDict
                [ ("get", OpenAPI.JDict
                     [ ("summary", OpenAPI.JStr "Get all categories");
                       ("security", OpenAPI.JList [OpenAPI.security_requirement]) ]);
                  ("post", OpenAPI.JDict
                     [ ("summary", OpenAPI.JStr "Create a new category");
                       ("security", OpenAPI.JList
                          [ OpenAPI.JDict [("OAuth2", OpenAPI.JList [])];
                            OpenAPI.security_requirement ]) ]) ]);
             ("/api/categories/tree", OpenAPI.JDict
                [ ("put", OpenAPI.JDict
                     [ ("summary", OpenAPI.JStr "Save entire category tree");
                       ("security", OpenAPI.JList [OpenAPI.security_requirement]) ]) ]) ]);
        ("components", OpenAPI.JDict
           [ ("schemas", OpenAPI.JDict []);
             ("securitySchemes", OpenAPI.JDict
                [("APIKeyHeader", OpenAPI.security_scheme)]) ]) ].
Proof. reflexivity. Qed.
